(** * vue-gtm: the install procedure and the router guard of [src/index.ts]

    The plugin wires the analytics core ([@gtm-support/core]) into Vue 2 and
    vue-router.  The development below embeds [install],
    [initVueRouterGuard], the [afterEach] handler and [useGtm] as functions
    on an explicit world state: the module-level singleton, the two Vue
    accessors, the hooks registered on routers, the console, the calls made
    to the core's [loadScript] and [trackView], the handlers suspended at
    their [await] and the callbacks handed to [Vue.nextTick]. *)

From Stdlib Require Import String Ascii List ZArith Bool Lia.
From stdpp Require Import gmap strings list fin_maps.

Local Open Scope Z_scope.
Local Open Scope nat_scope.

(** ** JavaScript values *)

(** The values the code inspects dynamically ([typeof], truthiness, [!= null]).
    Numbers are the integral ones; an object is an opaque reference. *)
Inductive JsValue :=
| JUndefined
| JNull
| JBool (b : bool)
| JNum (n : Z)
| JStr (s : string)
| JObject (ref : nat).

(** [typeof v] *)
Definition typeof (v : JsValue) : string :=
  match v with
  | JUndefined => "undefined"
  | JNull => "object"
  | JBool _ => "boolean"
  | JNum _ => "number"
  | JStr _ => "string"
  | JObject _ => "object"
  end.

(** [!!v]: the value is truthy. *)
Definition truthy (v : JsValue) : bool :=
  match v with
  | JUndefined => false
  | JNull => false
  | JBool b => b
  | JNum n => negb (Z.eqb n 0)
  | JStr s => negb (String.eqb s "")
  | JObject _ => true
  end.


(** A plain object used as a record ([Record<string, any>], [GtmQueryParams]). *)
Abbreviation JsRecord := (gmap string JsValue).

(** [{ ...a, ...b }]: the keys of [b] win.  Spreading [undefined] or [null]
    contributes nothing, so both arguments are optional. *)
Definition spread (a b : option JsRecord) : JsRecord :=
  default ∅ b ∪ default ∅ a.

(** ** Strings *)

(** A string is its sequence of code units.  The code only looks for ["/"]
    at either end and drops one leading unit. *)

(** [s.startsWith(p)] *)
Definition startsWith (s p : string) : bool := String.prefix p s.

(** [s.endsWith(p)]: the last [length p] characters of [s] are [p]. *)
Definition endsWith (s p : string) : bool :=
  let n := String.length s in
  let m := String.length p in
  (m <=? n) && String.eqb (String.substring (n - m) m s) p.

(** [s.substring(start)]: from index [start] to the end. *)
Definition substring (start : nat) (s : string) : string :=
  String.substring start (String.length s - start) s.

(** ** Routes and routers (vue-router) *)

Record RouteMeta := mkMeta {
  gtm : JsValue;                                (* [meta.gtm], [JUndefined] when absent *)
  gtmAdditionalEventData : option JsRecord      (* [meta.gtmAdditionalEventData] *)
}.

Record Route := mkRoute {
  name : JsValue;                               (* [string | null | undefined] *)
  fullPath : string;
  meta : option RouteMeta
}.

(** A router instance: its identity and [router.options.base]. *)
Record Router := mkRouter {
  router_ref : nat;
  options_base : option string
}.

(** The outcome of awaiting a value: it fulfils or it rejects (a function that
    throws inside an [await]ed call rejects the surrounding async function the
    same way). *)
Inductive Settled (A : Type) :=
| Fulfilled (v : A)
| Rejected (reason : JsValue).
Arguments Fulfilled {A} v.
Arguments Rejected {A} reason.

(** ** Options *)

(** [ignoredViews?: string[] | ((to, from) => boolean)] *)
Inductive IgnoredViews :=
| IgnoredNames (names : list string)
| IgnoredPredicate (f : Route -> Route -> bool).

Definition Deriver := Route -> Route -> Settled JsRecord.

Module GtmIdContainer.
Record t := mk {
  id : string;
  queryParams : option JsRecord
}.
End GtmIdContainer.

(** An element of an [id] array: [string | GtmIdContainer]. *)
Inductive GtmId :=
| IdString (s : string)
| IdContainer (c : GtmIdContainer.t).

(** The [id] option: one identifier or an array of them. *)
Inductive GtmIds :=
| SingleId (s : string)
| IdArray (ids : list GtmId).

(** [VueGtmUseOptions].  A field is [None] when the property is absent.  The
    fields of [GtmSupportOptions] that this file never reads ([enabled],
    [loadScript], [debug], [defer], ...) travel in [rest]. *)
Module VueGtmUseOptions.
Record t := mk {
  id : GtmIds;
  queryParams : option JsRecord;
  vueRouter : option Router;
  vueRouterAdditionalEventData : option Deriver;
  ignoredViews : option IgnoredViews;
  trackOnNextTick : option JsValue;
  rest : JsRecord
}.
End VueGtmUseOptions.
Import VueGtmUseOptions (vueRouter, vueRouterAdditionalEventData, ignoredViews, trackOnNextTick).

(** [{ ...conf, queryParams: q }] *)
Definition with_queryParams (conf : VueGtmUseOptions.t) (q : JsRecord) : VueGtmUseOptions.t :=
  VueGtmUseOptions.mk
    (VueGtmUseOptions.id conf) (Some q) (vueRouter conf)
    (vueRouterAdditionalEventData conf) (ignoredViews conf)
    (trackOnNextTick conf) (VueGtmUseOptions.rest conf).

(** The default value of the parameter: [options = { id: '' }]. *)
Definition default_param : VueGtmUseOptions.t :=
  VueGtmUseOptions.mk (SingleId "") None None None None None ∅.

(** [{ trackOnNextTick: false, ...options }] *)
Definition apply_defaults (options : VueGtmUseOptions.t) : VueGtmUseOptions.t :=
  VueGtmUseOptions.mk
    (VueGtmUseOptions.id options) (VueGtmUseOptions.queryParams options)
    (vueRouter options) (vueRouterAdditionalEventData options)
    (ignoredViews options)
    (match trackOnNextTick options with
     | Some v => Some v
     | None => Some (JBool false)
     end)
    (VueGtmUseOptions.rest options).

(** Reading a property that may be absent gives [undefined]. *)
Definition get (field : option JsValue) : JsValue := default JUndefined field.

(** ** The analytics core ([@gtm-support/core]) *)

(** What [install] reads from the constructed [GtmSupport] instance. *)
Record GtmPlugin := mkPlugin {
  plugin_config : VueGtmUseOptions.t;   (* the argument of [new GtmPlugin(...)] *)
  options_enabled : JsValue;            (* [gtmPlugin.options.enabled] *)
  options_loadScript : JsValue;         (* [gtmPlugin.options.loadScript] *)
  isInBrowserContext : bool             (* the result of [gtmPlugin.isInBrowserContext()] *)
}.

(** A call [trackView(name, fullUrl, additionalEventData)]. *)
Record TrackView := mkTrackView {
  tv_name : JsValue;
  tv_fullUrl : string;
  tv_additionalEventData : JsRecord
}.

(** ** Closures *)

(** The variables captured by the arrow function given to [afterEach]. *)
Record Guard := mkGuard {
  g_vueRouter : Router;
  g_ignoredViews : IgnoredViews;
  g_trackOnNextTick : JsValue;
  g_deriveAdditionalEventData : Deriver
}.

(** The handler suspended at [await deriveAdditionalEventData(to, from)]: its
    live variables and the outcome it is waiting for. *)
Record Suspended := mkSuspended {
  s_guard : Guard;
  s_to : Route;
  s_name : JsValue;
  s_awaited : Settled JsRecord
}.

(** ** The world *)

Record World := mkWorld {
  gtmPlugin : option GtmPlugin;               (* [let gtmPlugin], module level *)
  Vue_prototype_gtm : option GtmPlugin;       (* [Vue.prototype.$gtm] *)
  Vue_gtm : option GtmPlugin;                 (* [Vue.gtm] *)
  afterEach_hooks : gmap nat (list Guard);    (* hooks registered, per router *)
  console_warn : list string;
  loadScript_calls : list (string * VueGtmUseOptions.t);
  trackView_calls : list TrackView;
  suspended : list Suspended;                 (* handlers waiting at their [await] *)
  nextTick_callbacks : list TrackView;        (* callbacks given to [Vue.nextTick] *)
  rejections : list JsValue                   (* rejected handler promises *)
}.

(** Nothing has run yet. *)
Definition initial : World :=
  mkWorld None None None ∅ [] [] [] [] [] [].

Definition set_plugin (p : GtmPlugin) (w : World) : World :=
  mkWorld (Some p) (Some p) (Some p) (afterEach_hooks w) (console_warn w)
    (loadScript_calls w) (trackView_calls w) (suspended w)
    (nextTick_callbacks w) (rejections w).

Definition set_afterEach_hooks (h : gmap nat (list Guard)) (w : World) : World :=
  mkWorld (gtmPlugin w) (Vue_prototype_gtm w) (Vue_gtm w) h (console_warn w)
    (loadScript_calls w) (trackView_calls w) (suspended w)
    (nextTick_callbacks w) (rejections w).

Definition set_console_warn (l : list string) (w : World) : World :=
  mkWorld (gtmPlugin w) (Vue_prototype_gtm w) (Vue_gtm w) (afterEach_hooks w) l
    (loadScript_calls w) (trackView_calls w) (suspended w)
    (nextTick_callbacks w) (rejections w).

Definition set_loadScript_calls (l : list (string * VueGtmUseOptions.t)) (w : World) : World :=
  mkWorld (gtmPlugin w) (Vue_prototype_gtm w) (Vue_gtm w) (afterEach_hooks w)
    (console_warn w) l (trackView_calls w) (suspended w)
    (nextTick_callbacks w) (rejections w).

Definition set_trackView_calls (l : list TrackView) (w : World) : World :=
  mkWorld (gtmPlugin w) (Vue_prototype_gtm w) (Vue_gtm w) (afterEach_hooks w)
    (console_warn w) (loadScript_calls w) l (suspended w)
    (nextTick_callbacks w) (rejections w).

Definition set_suspended (l : list Suspended) (w : World) : World :=
  mkWorld (gtmPlugin w) (Vue_prototype_gtm w) (Vue_gtm w) (afterEach_hooks w)
    (console_warn w) (loadScript_calls w) (trackView_calls w) l
    (nextTick_callbacks w) (rejections w).

Definition set_nextTick_callbacks (l : list TrackView) (w : World) : World :=
  mkWorld (gtmPlugin w) (Vue_prototype_gtm w) (Vue_gtm w) (afterEach_hooks w)
    (console_warn w) (loadScript_calls w) (trackView_calls w) (suspended w)
    l (rejections w).

Definition set_rejections (l : list JsValue) (w : World) : World :=
  mkWorld (gtmPlugin w) (Vue_prototype_gtm w) (Vue_gtm w) (afterEach_hooks w)
    (console_warn w) (loadScript_calls w) (trackView_calls w) (suspended w)
    (nextTick_callbacks w) l.

(** *** Operations of the collaborators *)

(** [console.warn(msg)] *)
Definition warn (msg : string) (w : World) : World :=
  set_console_warn (console_warn w ++ [msg]) w.

(** [loadScript(id, config)] of the core. *)
Definition loadScript (id : string) (config : VueGtmUseOptions.t) (w : World) : World :=
  set_loadScript_calls (loadScript_calls w ++ [(id, config)]) w.

(** The hooks registered on a router, oldest first. *)
Definition hooks_of (r : Router) (w : World) : list Guard :=
  default [] (afterEach_hooks w !! router_ref r).

(** [vueRouter.afterEach(handler)] *)
Definition afterEach (r : Router) (g : Guard) (w : World) : World :=
  set_afterEach_hooks (<[router_ref r := hooks_of r w ++ [g]]> (afterEach_hooks w)) w.

(** [Vue.nextTick(() => { gtmPlugin?.trackView(name, fullUrl, data) })] *)
Definition nextTick (cb : TrackView) (w : World) : World :=
  set_nextTick_callbacks (nextTick_callbacks w ++ [cb]) w.

(** [gtmPlugin?.trackView(name, fullUrl, data)]: the singleton is read when the
    call is evaluated; without one nothing happens. *)
Definition optional_trackView (call : TrackView) (w : World) : World :=
  match gtmPlugin w with
  | Some _ => set_trackView_calls (trackView_calls w ++ [call]) w
  | None => w
  end.

(** [useGtm()] *)
Definition useGtm (w : World) : option GtmPlugin := gtmPlugin w.

(** ** The router guard *)

(** [ignoredViews.includes(v)] on an array of strings. *)
Definition includes (names : list string) (v : JsValue) : bool :=
  match v with
  | JStr s => existsb (String.eqb s) names
  | _ => false
  end.

(** The condition of the early [return] of the handler:
    [typeof to.name !== 'string' ||
     (Array.isArray(ignoredViews) && ignoredViews.includes(to.name)) ||
     (typeof ignoredViews === 'function' && ignoredViews(to, from))]. *)
Definition ignore_route (ignoredViews : IgnoredViews) (to from : Route) : bool :=
  negb (String.eqb (typeof (name to)) "string")
  || match ignoredViews with
     | IgnoredNames names => includes names (name to)
     | IgnoredPredicate _ => false
     end
  || match ignoredViews with
     | IgnoredNames _ => false
     | IgnoredPredicate f => f to from
     end.

(** [to.meta && typeof to.meta.gtm === 'string' && !!to.meta.gtm
      ? to.meta.gtm : to.name] *)
Definition event_name (to : Route) : JsValue :=
  match meta to with
  | Some m =>
      if String.eqb (typeof (gtm m)) "string" && truthy (gtm m)
      then gtm m
      else name to
  | None => name to
  end.

(** [{ ...derived, ...(to.meta?.gtmAdditionalEventData) }] *)
Definition additional_event_data (derived : JsRecord) (to : Route) : JsRecord :=
  spread (Some derived) (meta to ≫= gtmAdditionalEventData).

(** The reconstruction of [fullUrl] from [vueRouter.options.base ?? ''] and
    [to.fullPath]. *)
Definition full_url (vueRouter : Router) (to : Route) : string :=
  let baseUrl := default "" (options_base vueRouter) in
  let fullUrl := baseUrl in
  let fullUrl := if negb (endsWith fullUrl "/") then fullUrl +:+ "/" else fullUrl in
  fullUrl +:+ (if startsWith (fullPath to) "/"
               then substring 1 (fullPath to)
               else fullPath to).

(** The handler, from its call by the router to its [await]: the filter, the
    event name, the call of the deriver.  The router gets the promise back
    here; the rest of the body runs when the awaited outcome is there. *)
Definition handler (g : Guard) (to from : Route) (w : World) : World :=
  if ignore_route (g_ignoredViews g) to from then w
  else
    let name := event_name to in
    let awaited := g_deriveAdditionalEventData g to from in
    set_suspended (suspended w ++ [mkSuspended g to name awaited]) w.

(** The handler, from its [await] to its end.  A rejected deriver rejects the
    promise of the handler, which nobody handles. *)
Definition resume (s : Suspended) (w : World) : World :=
  match s_awaited s with
  | Rejected reason => set_rejections (rejections w ++ [reason]) w
  | Fulfilled derived =>
      let additionalEventData := additional_event_data derived (s_to s) in
      let fullUrl := full_url (g_vueRouter (s_guard s)) (s_to s) in
      let call := mkTrackView (s_name s) fullUrl additionalEventData in
      if truthy (g_trackOnNextTick (s_guard s))
      then nextTick call w
      else optional_trackView call w
  end.

(** *** The event loop *)

(** The suspended handlers resume, oldest first. *)
Definition resume_all (w : World) : World :=
  fold_left (fun w s => resume s w) (suspended w) (set_suspended [] w).

(** Vue's next tick: the callbacks queued by [Vue.nextTick] run in order. *)
Definition flush_callbacks (w : World) : World :=
  fold_left (fun w cb => optional_trackView cb w) (nextTick_callbacks w)
    (set_nextTick_callbacks [] w).

(** Everything that was scheduled has run. *)
Definition settle (w : World) : World := flush_callbacks (resume_all w).

(** The router completes a navigation: every registered hook is called. *)
Definition navigation (r : Router) (to from : Route) (w : World) : World :=
  fold_left (fun w g => handler g to from w) (hooks_of r w) w.

(** *** [initVueRouterGuard] *)

Definition not_found_warning : string :=
  "[VueGtm]: You tried to register 'vueRouter' for vue-gtm, but 'vue-router' was not found.".

(** A falsy [vueRouter] is [None].  The defaults of the parameters are
    [ignoredViews = []] and [deriveAdditionalEventData = () => ({})]. *)
Definition initVueRouterGuard (vueRouter : option Router)
    (ignoredViews : option IgnoredViews) (trackOnNextTick : JsValue)
    (deriveAdditionalEventData : option Deriver) (w : World) : World :=
  let ignoredViews := default (IgnoredNames []) ignoredViews in
  let deriveAdditionalEventData :=
    default (fun _ _ => Fulfilled ∅) deriveAdditionalEventData in
  match vueRouter with
  | None => warn not_found_warning w
  | Some r =>
      afterEach r (mkGuard r ignoredViews trackOnNextTick deriveAdditionalEventData) w
  end.

(** ** [install] *)

(** The body of [options.id.forEach((id) => { ... })]. *)
Definition load_container (options : VueGtmUseOptions.t) (id : GtmId) (w : World) : World :=
  match id with
  | IdString s => loadScript s options w
  | IdContainer c =>
      let newConf := options in
      let newConf :=
        match GtmIdContainer.queryParams c with
        | Some q =>
            with_queryParams newConf
              (spread (VueGtmUseOptions.queryParams newConf) (Some q))
        | None => newConf
        end in
      loadScript (GtmIdContainer.id c) newConf w
  end.

(** [install(Vue, options)].  [new_GtmPlugin] is the constructor of the core;
    [options = None] is the call without the second argument. *)
Definition install (new_GtmPlugin : VueGtmUseOptions.t -> GtmPlugin)
    (options : option VueGtmUseOptions.t) (w : World) : World :=
  let options := default default_param options in
  let options := apply_defaults options in
  let plugin := new_GtmPlugin options in
  let w := set_plugin plugin w in
  if isInBrowserContext plugin then
    let w :=
      match vueRouter options with
      | Some r =>
          initVueRouterGuard (Some r) (ignoredViews options)
            (get (trackOnNextTick options))
            (vueRouterAdditionalEventData options) w
      | None => w
      end in
    if truthy (options_enabled plugin) && truthy (options_loadScript plugin) then
      match VueGtmUseOptions.id options with
      | IdArray ids => fold_left (fun w id => load_container options id w) ids w
      | SingleId s => loadScript s options w
      end
    else w
  else w.

(** ** Notions used in the statements *)

(** Nothing is scheduled: no handler is suspended, no callback is queued. *)
Definition quiet (w : World) : Prop :=
  suspended w = [] /\ nextTick_callbacks w = [].

(** The call built by the handler once the deriver has fulfilled with [derived]. *)
Definition view_of (g : Guard) (to : Route) (derived : JsRecord) : TrackView :=
  mkTrackView (event_name to) (full_url (g_vueRouter g) to)
    (additional_event_data derived to).

(** The configuration [install] works with: the default of the parameter,
    then the default of [trackOnNextTick]. *)
Definition effective (options : option VueGtmUseOptions.t) : VueGtmUseOptions.t :=
  apply_defaults (default default_param options).

(** The call of [loadScript] made for one element of the [id] array. *)
Definition container_call (conf : VueGtmUseOptions.t) (id : GtmId)
  : string * VueGtmUseOptions.t :=
  match id with
  | IdString s => (s, conf)
  | IdContainer c =>
      (GtmIdContainer.id c,
       match GtmIdContainer.queryParams c with
       | Some q => with_queryParams conf (spread (VueGtmUseOptions.queryParams conf) (Some q))
       | None => conf
       end)
  end.

(** Two configurations agree on every field but [queryParams]. *)
Definition same_but_queryParams (a b : VueGtmUseOptions.t) : Prop :=
  VueGtmUseOptions.id a = VueGtmUseOptions.id b
  /\ vueRouter a = vueRouter b
  /\ vueRouterAdditionalEventData a = vueRouterAdditionalEventData b
  /\ ignoredViews a = ignoredViews b
  /\ trackOnNextTick a = trackOnNextTick b
  /\ VueGtmUseOptions.rest a = VueGtmUseOptions.rest b.

(** The two steps [install] takes in a browser, as functions of the
    configuration: the registration of the guard and the loading of the
    scripts. *)
Definition guard_step (conf : VueGtmUseOptions.t) (w : World) : World :=
  match vueRouter conf with
  | Some r =>
      afterEach r
        (mkGuard r (default (IgnoredNames []) (ignoredViews conf))
           (get (trackOnNextTick conf))
           (default (fun _ _ => Fulfilled ∅) (vueRouterAdditionalEventData conf))) w
  | None => w
  end.

Definition load_step (conf : VueGtmUseOptions.t) (plugin : GtmPlugin) (w : World) : World :=
  if truthy (options_enabled plugin) && truthy (options_loadScript plugin) then
    set_loadScript_calls
      (loadScript_calls w ++
         match VueGtmUseOptions.id conf with
         | IdArray ids => map (container_call conf) ids
         | SingleId s => [(s, conf)]
         end) w
  else w.

(** ** Samples used by the examples *)

(** A core for the examples: [enabled] and [loadScript] are read from the
    options and count as [true] when absent; [browser] is the answer of
    [isInBrowserContext()]. *)
Definition sample_core (browser : bool) (options : VueGtmUseOptions.t) : GtmPlugin :=
  mkPlugin options
    (default (JBool true) (VueGtmUseOptions.rest options !! "enabled"))
    (default (JBool true) (VueGtmUseOptions.rest options !! "loadScript"))
    browser.

Definition sample_router : Router := mkRouter 0 (Some "/app").

Definition sample_options (tick : option JsValue) : VueGtmUseOptions.t :=
  VueGtmUseOptions.mk (SingleId "GTM-1") None (Some sample_router) None None tick ∅.

(** The plugin and the world after [Vue.use(VueGtm, sample_options tick)] in a
    browser. *)
Definition sample_plugin (tick : option JsValue) : GtmPlugin :=
  sample_core true (effective (Some (sample_options tick))).

Definition sample_world (tick : option JsValue) : World :=
  install (sample_core true) (Some (sample_options tick)) initial.

(** The guard that this installation registers on [sample_router]. *)
Definition sample_guard (tick : JsValue) : Guard :=
  mkGuard sample_router (IgnoredNames []) tick (fun _ _ => Fulfilled ∅).


Definition home : Route := mkRoute (JStr "home") "/home" None.



Definition checkout : Route :=
  mkRoute (JStr "cart") "/cart" (Some (mkMeta (JStr "Checkout") None)).


Definition gtm1 : GtmIdContainer.t :=
  GtmIdContainer.mk "GTM-1" (Some {["a" := JStr "1"]}).

(** [{ id: [...], queryParams: { a: '0', b: '2' } }] *)
Definition with_ids (ids : list GtmId) : VueGtmUseOptions.t :=
  VueGtmUseOptions.mk (IdArray ids)
    (Some (<["a" := JStr "0"]> {["b" := JStr "2"]})) None None None None ∅.

(** [{ id: 'GTM-1' }], no router. *)
Definition without_router : VueGtmUseOptions.t :=
  VueGtmUseOptions.mk (SingleId "GTM-1") None None None None None ∅.

(** ** Notions used in the further properties *)

(** The guard that [install] hands to [afterEach] for the router [r]. *)
Definition installed_guard (conf : VueGtmUseOptions.t) (r : Router) : Guard :=
  mkGuard r (default (IgnoredNames []) (ignoredViews conf))
    (get (trackOnNextTick conf))
    (default (fun _ _ => Fulfilled ∅) (vueRouterAdditionalEventData conf)).

(** The identifier a script is loaded for. *)
Definition id_of (ident : GtmId) : string :=
  match ident with
  | IdString s => s
  | IdContainer c => GtmIdContainer.id c
  end.

(** The identifiers of the [id] option, in order. *)
Definition ids_of (ids : GtmIds) : list string :=
  match ids with
  | SingleId s => [s]
  | IdArray l => map id_of l
  end.

(** [install] gets as far as loading scripts: in a browser, with [enabled]
    and [loadScript] both truthy on the plugin. *)
Definition loads (plugin : GtmPlugin) : bool :=
  isInBrowserContext plugin
  && (truthy (options_enabled plugin) && truthy (options_loadScript plugin)).

(** The handler defers its call to the next tick. *)
Definition deferred (s : Suspended) : bool :=
  truthy (g_trackOnNextTick (s_guard s)).

(** The call a suspended handler builds when it resumes, if its deriver
    fulfilled. *)
Definition call_of (s : Suspended) : option TrackView :=
  match s_awaited s with
  | Fulfilled derived =>
      Some (mkTrackView (s_name s) (full_url (g_vueRouter (s_guard s)) (s_to s))
              (additional_event_data derived (s_to s)))
  | Rejected _ => None
  end.

(** The reason a suspended handler rejects with, if its deriver rejected. *)
Definition reason_of (s : Suspended) : option JsValue :=
  match s_awaited s with
  | Fulfilled _ => None
  | Rejected reason => Some reason
  end.


(** * Properties *)

(** ** Strings *)

Lemma substring_all (s : string) : String.substring 0 (String.length s) s = s.
Proof. induction s as [|c s IH]; simpl; [reflexivity | now rewrite IH]. Qed.

Lemma substring_1_cons (c : ascii) (s : string) : substring 1 (String c s) = s.
Proof.
  unfold substring. simpl. rewrite Nat.sub_0_r. apply substring_all.
Qed.

Lemma append_nil (t : string) : "" +:+ t = t.
Proof. reflexivity. Qed.

Lemma append_cons (c : ascii) (s t : string) : String c s +:+ t = String c (s +:+ t).
Proof. reflexivity. Qed.


Lemma startsWith_slash (s : string) :
  startsWith s "/" = true <-> exists t, s = "/" +:+ t.
Proof.
  unfold startsWith. destruct s as [|c s]; cbn [String.prefix].
  - split; [discriminate | intros [t Ht]; discriminate].
  - destruct (ascii_dec "/" c) as [<-|Hne].
    + destruct s; split; eauto.
    + split; [discriminate |].
      intros [t Ht]. rewrite append_cons, append_nil in Ht. congruence.
Qed.

Lemma endsWith_cons (c d : ascii) (s : string) :
  endsWith (String c (String d s)) "/" = endsWith (String d s) "/".
Proof.
  unfold endsWith. simpl String.length. simpl Nat.leb.
  replace (S (S (String.length s)) - 1) with (S (String.length s)) by lia.
  replace (S (String.length s) - 1) with (String.length s) by lia.
  reflexivity.
Qed.

Lemma endsWith_slash (s : string) :
  endsWith s "/" = true <-> exists b, s = b +:+ "/".
Proof.
  induction s as [|c s IH].
  - split; [discriminate | intros [[|? ?] Hb]; discriminate].
  - destruct s as [|d s].
    + unfold endsWith. simpl. destruct (Ascii.eqb_spec c "/") as [->|Hne].
      * split; [exists ""; reflexivity | reflexivity].
      * split; [discriminate |].
        intros [[|e [|? ?]] Hb]; rewrite ?append_cons, ?append_nil in Hb;
          try congruence; discriminate.
    + rewrite endsWith_cons, IH. split.
      * intros [b ->]. exists (String c b). reflexivity.
      * intros [[|e b] Hb]; rewrite ?append_cons, ?append_nil in Hb;
          [discriminate |].
        injection Hb as _ Hb. eauto.
Qed.

(** ** Values and records *)


Lemma lookup_spread (a b : option JsRecord) (k : string) :
  spread a b !! k =
  match default ∅ b !! k with
  | Some v => Some v
  | None => default ∅ a !! k
  end.
Proof.
  unfold spread. rewrite lookup_union.
  destruct (default ∅ b !! k), (default ∅ a !! k); reflexivity.
Qed.

(** ** The world after a navigation *)

Lemma hooks_of_afterEach (r : Router) (g : Guard) (w : World) :
  hooks_of r (afterEach r g w) = hooks_of r w ++ [g].
Proof.
  unfold hooks_of at 1. unfold afterEach. simpl.
  now rewrite lookup_insert_eq.
Qed.


Lemma handler_suspends g to from w :
  ignore_route (g_ignoredViews g) to from = false ->
  handler g to from w =
  set_suspended
    (suspended w ++
       [mkSuspended g to (event_name to) (g_deriveAdditionalEventData g to from)]) w.
Proof. unfold handler. now intros ->. Qed.

Lemma resume_all_handler g to from w derived :
  quiet w ->
  ignore_route (g_ignoredViews g) to from = false ->
  g_deriveAdditionalEventData g to from = Fulfilled derived ->
  resume_all (handler g to from w) =
  if truthy (g_trackOnNextTick g)
  then set_nextTick_callbacks [view_of g to derived] w
  else optional_trackView (view_of g to derived) w.
Proof.
  intros [Hs Hc] Hpass Hd. rewrite handler_suspends by assumption.
  destruct w; simpl in *; subst.
  unfold resume_all, resume; simpl. rewrite Hd.
  destruct (truthy (g_trackOnNextTick g)); reflexivity.
Qed.

(** With the singleton in place, the resumed handler tracks at once or leaves
    one callback, and the next tick turns that callback into the call. *)
Lemma resume_all_handler_calls g to from w p derived :
  quiet w ->
  gtmPlugin w = Some p ->
  ignore_route (g_ignoredViews g) to from = false ->
  g_deriveAdditionalEventData g to from = Fulfilled derived ->
  let w' := resume_all (handler g to from w) in
  (if truthy (g_trackOnNextTick g)
   then trackView_calls w' = trackView_calls w
        /\ nextTick_callbacks w' = [view_of g to derived]
   else trackView_calls w' = trackView_calls w ++ [view_of g to derived]
        /\ nextTick_callbacks w' = [])
  /\ trackView_calls (flush_callbacks w') = trackView_calls w ++ [view_of g to derived].
Proof.
  intros Hq Hp Hpass Hd. cbv zeta.
  rewrite (resume_all_handler g to from w derived) by assumption.
  destruct Hq as [Hs Hc]. destruct w; simpl in *; subst.
  destruct (truthy (g_trackOnNextTick g)); repeat split.
Qed.

Lemma settle_handler g to from w p derived :
  quiet w ->
  gtmPlugin w = Some p ->
  ignore_route (g_ignoredViews g) to from = false ->
  g_deriveAdditionalEventData g to from = Fulfilled derived ->
  trackView_calls (settle (handler g to from w)) =
  trackView_calls w ++ [view_of g to derived].
Proof.
  intros Hq Hp Hpass Hd. unfold settle.
  now apply (resume_all_handler_calls g to from w p derived).
Qed.

Lemma callbacks_without_plugin (callbacks : list TrackView) (w : World) :
  gtmPlugin w = None ->
  fold_left (fun w cb => optional_trackView cb w) callbacks w = w.
Proof.
  intros Hp. induction callbacks as [| cb callbacks IH]; simpl; [reflexivity |].
  unfold optional_trackView at 2. now rewrite Hp.
Qed.

Lemma flush_without_plugin (w : World) :
  gtmPlugin w = None -> flush_callbacks w = set_nextTick_callbacks [] w.
Proof.
  intros Hp. unfold flush_callbacks. now apply callbacks_without_plugin.
Qed.

(** ** The steps of [install] *)

Lemma load_container_calls conf id w :
  load_container conf id w =
  set_loadScript_calls (loadScript_calls w ++ [container_call conf id]) w.
Proof.
  destruct id as [s | c]; [reflexivity |].
  unfold load_container, container_call, loadScript.
  destruct (GtmIdContainer.queryParams c); reflexivity.
Qed.

Lemma forEach_load_container conf ids w :
  fold_left (fun w id => load_container conf id w) ids w =
  set_loadScript_calls (loadScript_calls w ++ map (container_call conf) ids) w.
Proof.
  revert w. induction ids as [| id ids IH]; intros w; simpl.
  - rewrite app_nil_r. now destruct w.
  - rewrite IH, load_container_calls. destruct w; simpl.
    unfold set_loadScript_calls; simpl. now rewrite <- app_assoc.
Qed.

Lemma install_steps new options w :
  install new options w =
  if isInBrowserContext (new (effective options))
  then load_step (effective options) (new (effective options))
         (guard_step (effective options) (set_plugin (new (effective options)) w))
  else set_plugin (new (effective options)) w.
Proof.
  unfold install, load_step, guard_step. cbv zeta.
  change (apply_defaults (default default_param options)) with (effective options).
  destruct (isInBrowserContext (new (effective options))); [| reflexivity].
  destruct (vueRouter (effective options)) as [r |];
    destruct (truthy (options_enabled (new (effective options)))
              && truthy (options_loadScript (new (effective options))));
    try reflexivity;
    destruct (VueGtmUseOptions.id (effective options)) as [s | ids];
    try reflexivity;
    now rewrite forEach_load_container.
Qed.

Lemma load_step_frame conf plugin w :
  gtmPlugin (load_step conf plugin w) = gtmPlugin w
  /\ Vue_prototype_gtm (load_step conf plugin w) = Vue_prototype_gtm w
  /\ Vue_gtm (load_step conf plugin w) = Vue_gtm w
  /\ afterEach_hooks (load_step conf plugin w) = afterEach_hooks w
  /\ console_warn (load_step conf plugin w) = console_warn w.
Proof.
  unfold load_step.
  destruct (truthy (options_enabled plugin) && truthy (options_loadScript plugin));
    repeat split.
Qed.

Lemma guard_step_frame conf w :
  gtmPlugin (guard_step conf w) = gtmPlugin w
  /\ Vue_prototype_gtm (guard_step conf w) = Vue_prototype_gtm w
  /\ Vue_gtm (guard_step conf w) = Vue_gtm w
  /\ loadScript_calls (guard_step conf w) = loadScript_calls w
  /\ console_warn (guard_step conf w) = console_warn w.
Proof.
  unfold guard_step. destruct (vueRouter conf); repeat split.
Qed.

(** Rewrites a field of the world after [install] in a browser back to the
    field before the two steps. *)
Ltac through_steps conf plugin w :=
  let Hl := fresh "Hload" in
  let Hg := fresh "Hguard" in
  pose proof (load_step_frame conf plugin (guard_step conf (set_plugin plugin w))) as Hl;
  pose proof (guard_step_frame conf (set_plugin plugin w)) as Hg;
  simpl in Hg;
  repeat match type of Hl with
         | ?a /\ ?b => let H := fresh "Hframe" in destruct Hl as [H Hl]
         end;
  repeat match type of Hg with
         | ?a /\ ?b => let H := fresh "Hframe" in destruct Hg as [H Hg]
         end.

Lemma install_plugin new options w :
  gtmPlugin (install new options w) = Some (new (effective options))
  /\ Vue_prototype_gtm (install new options w) = Some (new (effective options))
  /\ Vue_gtm (install new options w) = Some (new (effective options)).
Proof.
  rewrite install_steps.
  destruct (isInBrowserContext (new (effective options))); [| repeat split].
  through_steps (effective options) (new (effective options)) w.
  repeat split; congruence.
Qed.

Lemma install_console_warn new options w :
  console_warn (install new options w) = console_warn w.
Proof.
  rewrite install_steps.
  destruct (isInBrowserContext (new (effective options))); [| reflexivity].
  through_steps (effective options) (new (effective options)) w.
  congruence.
Qed.

(** ** The filter *)




(** ** What is passed to [trackView] *)

Section Navigation.

(** A navigation that passes the filter, with a deriver that fulfils, in a
    world where the plugin is installed and nothing else is scheduled. *)
Context (g : Guard) (to from : Route) (w : World).
Context (p : GtmPlugin) (derived : JsRecord).
Hypothesis Hquiet : quiet w.
Hypothesis Hplugin : gtmPlugin w = Some p.
Hypothesis Hpass : ignore_route (g_ignoredViews g) to from = false.
Hypothesis Hderived : g_deriveAdditionalEventData g to from = Fulfilled derived.





End Navigation.






(** C8: while the singleton is absent, [useGtm] answers nothing, and a handler
    that reaches the call of [trackView] skips it without an error, when it
    calls directly and when the call waits for the next tick. *)
Theorem C8_missing_singleton (w : World) (s : Suspended) (derived : JsRecord) :
  gtmPlugin w = None ->
  s_awaited s = Fulfilled derived ->
  useGtm w = None
  /\ useGtm initial = None
  /\ (truthy (g_trackOnNextTick (s_guard s)) = false -> resume s w = w)
  /\ (truthy (g_trackOnNextTick (s_guard s)) = true ->
      trackView_calls (resume s w) = trackView_calls w
      /\ rejections (resume s w) = rejections w
      /\ trackView_calls (flush_callbacks (resume s w)) = trackView_calls w
      /\ rejections (flush_callbacks (resume s w)) = rejections w
      /\ nextTick_callbacks (flush_callbacks (resume s w)) = []).
Proof.
  intros Hp Hd. split; [exact Hp |]. split; [reflexivity |].
  unfold resume. rewrite Hd. split; intros ->.
  - unfold optional_trackView. now rewrite Hp.
  - rewrite flush_without_plugin by exact Hp. repeat split.
Qed.

Lemma C8_missing_singleton_witness :
  gtmPlugin initial = None
  /\ resume (mkSuspended (sample_guard (JBool false)) home (JStr "home") (Fulfilled ∅))
       initial = initial
  /\ trackView_calls
       (flush_callbacks
          (resume (mkSuspended (sample_guard (JBool true)) home (JStr "home")
                     (Fulfilled ∅)) initial)) = [].
Proof.
  split; [reflexivity |]. split.
  - apply (proj1 (proj2 (proj2
             (C8_missing_singleton initial
                (mkSuspended (sample_guard (JBool false)) home (JStr "home")
                   (Fulfilled ∅)) ∅ eq_refl eq_refl)))).
    reflexivity.
  - apply (proj2 (proj2 (proj2
             (C8_missing_singleton initial
                (mkSuspended (sample_guard (JBool true)) home (JStr "home")
                   (Fulfilled ∅)) ∅ eq_refl eq_refl)))).
    reflexivity.
Defined.

(** ** [install] *)

Section Install.

(** The constructor of the core, the argument of [install] and the world it
    runs in. *)
Context (new : VueGtmUseOptions.t -> GtmPlugin).
Context (options : option VueGtmUseOptions.t) (w : World).

(** C5: in a browser, with tracking and script loading enabled and an array
    as [id], [install] calls [loadScript] once per element, in order: a string
    goes with the whole configuration; a container goes with its own [id] and
    a copy of the configuration whose [queryParams], when the container has
    some, are the container's spread over the configuration's. *)
Theorem C5_load_containers (ids : list GtmId) :
  isInBrowserContext (new (effective options)) = true ->
  truthy (options_enabled (new (effective options))) = true ->
  truthy (options_loadScript (new (effective options))) = true ->
  VueGtmUseOptions.id (effective options) = IdArray ids ->
  (exists calls,
     loadScript_calls (install new options w) = loadScript_calls w ++ calls
     /\ length calls = length ids
     /\ forall i ident,
          ids !! i = Some ident ->
          exists cid conf,
            calls !! i = Some (cid, conf)
            /\ match ident with
               | IdString s => cid = s /\ conf = effective options
               | IdContainer c =>
                   cid = GtmIdContainer.id c
                   /\ same_but_queryParams conf (effective options)
                   /\ match GtmIdContainer.queryParams c with
                      | None => conf = effective options
                      | Some q =>
                          exists merged,
                            VueGtmUseOptions.queryParams conf = Some merged
                            /\ forall k,
                                 merged !! k =
                                 match q !! k with
                                 | Some v => Some v
                                 | None =>
                                     default ∅
                                       (VueGtmUseOptions.queryParams (effective options))
                                       !! k
                                 end
                      end
               end)
  /\ map (fun call => (call.1, VueGtmUseOptions.queryParams call.2))
       (loadScript_calls
          (install (sample_core true) (Some (with_ids [IdContainer gtm1])) initial)) =
     [("GTM-1", Some (<["a" := JStr "1"]> {["b" := JStr "2"]}))].
Proof.
  intros Hb He Hl Hid. split; [| reflexivity].
  exists (map (container_call (effective options)) ids).
  split; [| split].
  - rewrite install_steps, Hb. unfold load_step. rewrite He, Hl, Hid. simpl.
    now destruct (guard_step_frame (effective options)
                    (set_plugin (new (effective options)) w)) as (_ & _ & _ & -> & _).
  - apply length_map.
  - intros i ident Hi.
    exists (container_call (effective options) ident).1,
           (container_call (effective options) ident).2.
    split.
    + rewrite list_lookup_fmap, Hi. simpl.
      now destruct (container_call (effective options) ident).
    + destruct ident as [s | c]; simpl; [split; reflexivity |].
      split; [reflexivity |].
      destruct (GtmIdContainer.queryParams c) as [q |].
      * split; [repeat split |]. eexists. split; [reflexivity |].
        intros k. now rewrite lookup_spread.
      * split; [repeat split | reflexivity].
Qed.

(** C6: the plugin is built from the supplied options spread over
    [{ trackOnNextTick: false }]: every field the options have is kept,
    [trackOnNextTick] is [false] only when they do not have it; without the
    options argument the [id] of the configuration is the empty string. *)
Theorem C6_defaults :
  gtmPlugin (install new options w) = Some (new (effective options))
  /\ (forall o,
        options = Some o ->
        VueGtmUseOptions.id (effective options) = VueGtmUseOptions.id o
        /\ VueGtmUseOptions.queryParams (effective options) =
           VueGtmUseOptions.queryParams o
        /\ vueRouter (effective options) = vueRouter o
        /\ vueRouterAdditionalEventData (effective options) =
           vueRouterAdditionalEventData o
        /\ ignoredViews (effective options) = ignoredViews o
        /\ VueGtmUseOptions.rest (effective options) = VueGtmUseOptions.rest o
        /\ (forall v,
              trackOnNextTick o = Some v ->
              trackOnNextTick (effective options) = Some v)
        /\ (trackOnNextTick o = None ->
            trackOnNextTick (effective options) = Some (JBool false)))
  /\ (options = None ->
      VueGtmUseOptions.id (effective options) = SingleId ""
      /\ trackOnNextTick (effective options) = Some (JBool false)).
Proof.
  split; [apply install_plugin |]. split.
  - intros o ->. unfold effective. simpl. repeat split.
    + now intros v ->.
    + now intros ->.
  - intros ->. split; reflexivity.
Qed.

(** C7: outside a browser [install] only builds the singleton and publishes
    it: no hook is registered on any router and [loadScript] is not called,
    whatever the options say. *)
Theorem C7_not_in_browser :
  isInBrowserContext (new (effective options)) = false ->
  install new options w = set_plugin (new (effective options)) w
  /\ afterEach_hooks (install new options w) = afterEach_hooks w
  /\ loadScript_calls (install new options w) = loadScript_calls w
  /\ gtmPlugin (install new options w) = Some (new (effective options))
  /\ Vue_prototype_gtm (install new options w) = Some (new (effective options))
  /\ Vue_gtm (install new options w) = Some (new (effective options)).
Proof.
  intros Hb. rewrite install_steps, Hb. repeat split.
Qed.

(** C10: [install] never writes the warning, and without a router in the
    options it registers no hook; the branch that warns and registers nothing
    is taken only by [initVueRouterGuard] called with a falsy router. *)
Theorem C10_warning_unreachable :
  console_warn (install new options w) = console_warn w
  /\ (options ≫= vueRouter = None ->
      afterEach_hooks (install new options w) = afterEach_hooks w)
  /\ (forall ignored tick derive,
        initVueRouterGuard None ignored tick derive w = warn not_found_warning w
        /\ console_warn (initVueRouterGuard None ignored tick derive w) =
           console_warn w ++ [not_found_warning]
        /\ afterEach_hooks (initVueRouterGuard None ignored tick derive w) =
           afterEach_hooks w)
  /\ (forall r ignored tick derive,
        console_warn (initVueRouterGuard (Some r) ignored tick derive w) =
        console_warn w
        /\ hooks_of r (initVueRouterGuard (Some r) ignored tick derive w) =
           hooks_of r w ++
           [mkGuard r (default (IgnoredNames []) ignored) tick
              (default (fun _ _ => Fulfilled ∅) derive)]).
Proof.
  split; [apply install_console_warn |]. split; [| split].
  - intros Hno. rewrite install_steps.
    destruct (isInBrowserContext (new (effective options))); [| reflexivity].
    destruct (load_step_frame (effective options) (new (effective options))
                (guard_step (effective options)
                   (set_plugin (new (effective options)) w)))
      as (_ & _ & _ & -> & _).
    unfold guard_step.
    replace (vueRouter (effective options)) with (@None Router); [reflexivity |].
    destruct options as [o |]; [symmetry; exact Hno | reflexivity].
  - intros ignored tick derive. repeat split.
  - intros r ignored tick derive. split; [reflexivity |].
    unfold initVueRouterGuard. apply hooks_of_afterEach.
Qed.

End Install.

Lemma C5_load_containers_witness :
  isInBrowserContext
    (sample_core true (effective (Some (with_ids [IdString "GTM-0"; IdContainer gtm1])))) =
  true
  /\ exists calls,
       loadScript_calls
         (install (sample_core true)
            (Some (with_ids [IdString "GTM-0"; IdContainer gtm1])) initial) =
       loadScript_calls initial ++ calls
       /\ length calls = 2.
Proof.
  split; [reflexivity |].
  destruct (C5_load_containers (sample_core true)
              (Some (with_ids [IdString "GTM-0"; IdContainer gtm1])) initial
              [IdString "GTM-0"; IdContainer gtm1])
    as [(calls & Hcalls & Hlen & _) _].
  - reflexivity.
  - reflexivity.
  - reflexivity.
  - reflexivity.
  - exists calls. split; [exact Hcalls | exact Hlen].
Defined.

Lemma C6_defaults_witness :
  trackOnNextTick (effective (Some (sample_options (Some (JBool true))))) =
  Some (JBool true)
  /\ trackOnNextTick (effective (Some (sample_options None))) = Some (JBool false)
  /\ VueGtmUseOptions.id (effective None) = SingleId "".
Proof.
  split; [| split].
  - apply (proj1 (proj2 (C6_defaults (sample_core true)
                           (Some (sample_options (Some (JBool true)))) initial))
             (sample_options (Some (JBool true))) eq_refl).
    reflexivity.
  - apply (proj1 (proj2 (C6_defaults (sample_core true)
                           (Some (sample_options None)) initial))
             (sample_options None) eq_refl).
    reflexivity.
  - apply (proj2 (proj2 (C6_defaults (sample_core true) None initial)) eq_refl).
Defined.

Lemma C7_not_in_browser_witness :
  isInBrowserContext
    (sample_core false (effective (Some (sample_options None)))) = false
  /\ vueRouter (sample_options None) = Some sample_router
  /\ afterEach_hooks (install (sample_core false) (Some (sample_options None)) initial) =
     afterEach_hooks initial
  /\ loadScript_calls (install (sample_core false) (Some (sample_options None)) initial) =
     loadScript_calls initial.
Proof.
  split; [reflexivity |]. split; [reflexivity |].
  destruct (C7_not_in_browser (sample_core false) (Some (sample_options None)) initial)
    as (_ & Hhooks & Hloads & _).
  - reflexivity.
  - split; [exact Hhooks | exact Hloads].
Defined.

Lemma C10_warning_unreachable_witness :
  Some without_router ≫= vueRouter = None
  /\ afterEach_hooks (install (sample_core true) (Some without_router) initial) =
     afterEach_hooks initial.
Proof.
  split; [reflexivity |].
  apply (proj1 (proj2 (C10_warning_unreachable (sample_core true)
                         (Some without_router) initial))).
  reflexivity.
Defined.

(** * Further properties *)

(** ** What [install] leaves alone *)

Lemma load_step_rest conf plugin w :
  trackView_calls (load_step conf plugin w) = trackView_calls w
  /\ suspended (load_step conf plugin w) = suspended w
  /\ nextTick_callbacks (load_step conf plugin w) = nextTick_callbacks w
  /\ rejections (load_step conf plugin w) = rejections w.
Proof.
  unfold load_step.
  destruct (truthy (options_enabled plugin) && truthy (options_loadScript plugin));
    repeat split.
Qed.

Lemma guard_step_rest conf w :
  trackView_calls (guard_step conf w) = trackView_calls w
  /\ suspended (guard_step conf w) = suspended w
  /\ nextTick_callbacks (guard_step conf w) = nextTick_callbacks w
  /\ rejections (guard_step conf w) = rejections w.
Proof.
  unfold guard_step. destruct (vueRouter conf); repeat split.
Qed.

Lemma install_rest (new : VueGtmUseOptions.t -> GtmPlugin)
    (options : option VueGtmUseOptions.t) (w : World) :
  trackView_calls (install new options w) = trackView_calls w
  /\ suspended (install new options w) = suspended w
  /\ nextTick_callbacks (install new options w) = nextTick_callbacks w
  /\ rejections (install new options w) = rejections w.
Proof.
  rewrite install_steps.
  destruct (isInBrowserContext (new (effective options))); [| repeat split].
  destruct (load_step_rest (effective options) (new (effective options))
              (guard_step (effective options)
                 (set_plugin (new (effective options)) w)))
    as (-> & -> & -> & ->).
  destruct (guard_step_rest (effective options)
              (set_plugin (new (effective options)) w))
    as (-> & -> & -> & ->).
  repeat split.
Qed.

(** [install] tracks nothing and schedules nothing: the calls of [trackView],
    the suspended handlers, the callbacks of the next tick and the rejections
    are what they were.  The first call of [trackView] comes with the first
    navigation. *)
Theorem install_tracks_nothing (new : VueGtmUseOptions.t -> GtmPlugin)
    (options : option VueGtmUseOptions.t) (w : World) :
  trackView_calls (install new options w) = trackView_calls w
  /\ suspended (install new options w) = suspended w
  /\ nextTick_callbacks (install new options w) = nextTick_callbacks w
  /\ rejections (install new options w) = rejections w.
Proof. apply install_rest. Qed.

Lemma install_quiet new options w : quiet w -> quiet (install new options w).
Proof.
  intros [Hs Hc]. unfold quiet.
  destruct (install_rest new options w) as (_ & -> & -> & _).
  now split.
Qed.

(** ** The guard registered by [install] *)

Lemma effective_vueRouter options :
  vueRouter (effective options) = options ≫= vueRouter.
Proof. destruct options; reflexivity. Qed.

Lemma hooks_of_install new options w r :
  isInBrowserContext (new (effective options)) = true ->
  options ≫= vueRouter = Some r ->
  hooks_of r (install new options w) =
  hooks_of r w ++ [installed_guard (effective options) r].
Proof.
  intros Hb Hr. rewrite install_steps, Hb. unfold hooks_of at 1.
  destruct (load_step_frame (effective options) (new (effective options))
              (guard_step (effective options)
                 (set_plugin (new (effective options)) w)))
    as (_ & _ & _ & -> & _).
  unfold guard_step. rewrite effective_vueRouter, Hr.
  apply (hooks_of_afterEach r (installed_guard (effective options) r)
           (set_plugin (new (effective options)) w)).
Qed.

(** In a browser, with a router in the options, [install] registers exactly
    one hook on that router, after the hooks it already has, whether or not
    tracking and script loading are enabled.  The hook filters with the
    [ignoredViews] of the options (nothing is ignored without them), defers
    exactly when the options carry a truthy [trackOnNextTick], and derives
    with the deriver of the options (the empty record without one).  Routers
    with another identity keep their hooks. *)
Theorem install_registers_one_guard (new : VueGtmUseOptions.t -> GtmPlugin)
    (options : option VueGtmUseOptions.t) (w : World) (r : Router) :
  isInBrowserContext (new (effective options)) = true ->
  options ≫= vueRouter = Some r ->
  (exists g,
     hooks_of r (install new options w) = hooks_of r w ++ [g]
     /\ g_vueRouter g = r
     /\ g_ignoredViews g = default (IgnoredNames []) (options ≫= ignoredViews)
     /\ truthy (g_trackOnNextTick g) =
        match options ≫= trackOnNextTick with
        | Some v => truthy v
        | None => false
        end
     /\ g_deriveAdditionalEventData g =
        default (fun _ _ => Fulfilled ∅) (options ≫= vueRouterAdditionalEventData))
  /\ forall r',
       router_ref r' <> router_ref r ->
       hooks_of r' (install new options w) = hooks_of r' w.
Proof.
  intros Hb Hr. split.
  - exists (installed_guard (effective options) r).
    split; [now apply hooks_of_install |].
    split; [reflexivity |].
    destruct options as [o |]; [| discriminate]. simpl.
    repeat split. unfold get. now destruct (trackOnNextTick o).
  - intros r' Hne. rewrite install_steps, Hb. unfold hooks_of.
    destruct (load_step_frame (effective options) (new (effective options))
                (guard_step (effective options)
                   (set_plugin (new (effective options)) w)))
      as (_ & _ & _ & -> & _).
    unfold guard_step. rewrite effective_vueRouter, Hr. simpl.
    now rewrite lookup_insert_ne by congruence.
Qed.

Lemma install_registers_one_guard_witness :
  isInBrowserContext (sample_core true (effective (Some (sample_options None)))) = true
  /\ exists g,
       hooks_of sample_router
         (install (sample_core true) (Some (sample_options None)) initial) =
       hooks_of sample_router initial ++ [g]
       /\ truthy (g_trackOnNextTick g) = false.
Proof.
  split; [reflexivity |].
  destruct (install_registers_one_guard (sample_core true)
              (Some (sample_options None)) initial sample_router eq_refl eq_refl)
    as [(g & Hhooks & _ & _ & Htick & _) _].
  exists g. split; [exact Hhooks | exact Htick].
Defined.

(** ** The scripts loaded by [install] *)

Lemma map_fst_container_call conf ids :
  map fst (map (container_call conf) ids) = map id_of ids.
Proof.
  induction ids as [| [s | c] ids IH]; simpl; [reflexivity | |]; now rewrite IH.
Qed.

Lemma container_call_same conf ident :
  same_but_queryParams (container_call conf ident).2 conf.
Proof.
  destruct ident as [s | c]; simpl; [repeat split |].
  destruct (GtmIdContainer.queryParams c); repeat split.
Qed.

(** [install] calls [loadScript] once for each identifier of the [id] option,
    in order, when it runs in a browser and [enabled] and [loadScript] are
    both truthy on the plugin, and not at all otherwise; an empty array loads
    nothing.  Every call carries the configuration of [install], up to its
    [queryParams]. *)
Theorem install_loads_each_id (new : VueGtmUseOptions.t -> GtmPlugin)
    (options : option VueGtmUseOptions.t) (w : World) :
  exists calls,
    loadScript_calls (install new options w) = loadScript_calls w ++ calls
    /\ map fst calls =
       (if loads (new (effective options))
        then ids_of (VueGtmUseOptions.id (effective options))
        else [])
    /\ Forall (fun call => same_but_queryParams call.2 (effective options)) calls.
Proof.
  rewrite install_steps. unfold loads.
  destruct (isInBrowserContext (new (effective options))); cbn [andb].
  - unfold load_step.
    destruct (guard_step_frame (effective options)
                (set_plugin (new (effective options)) w))
      as (_ & _ & _ & Hloads & _).
    destruct (truthy (options_enabled (new (effective options)))
              && truthy (options_loadScript (new (effective options)))).
    + exists (match VueGtmUseOptions.id (effective options) with
              | IdArray ids => map (container_call (effective options)) ids
              | SingleId s => [(s, effective options)]
              end).
      split; [cbn [loadScript_calls set_loadScript_calls]; now rewrite Hloads |].
      destruct (VueGtmUseOptions.id (effective options)) as [s | ids].
      * split; [reflexivity |]. constructor; [repeat split | constructor].
      * split; [apply map_fst_container_call |].
        induction ids as [| ident ids IH]; constructor;
          [apply container_call_same | exact IH].
    + exists []. rewrite Hloads, app_nil_r.
      split; [reflexivity |]. split; [reflexivity | constructor].
  - exists []. rewrite app_nil_r.
    split; [reflexivity |]. split; [reflexivity | constructor].
Qed.

(** ** Handlers that resume *)



(** The world after a list of suspended handlers has resumed, field by
    field. *)
Lemma resume_fold (l : list Suspended) (w : World) :
  fold_left (fun w s => resume s w) l w =
  mkWorld (gtmPlugin w) (Vue_prototype_gtm w) (Vue_gtm w) (afterEach_hooks w)
    (console_warn w) (loadScript_calls w)
    (trackView_calls w ++
       match gtmPlugin w with
       | Some _ => omap call_of (List.filter (fun s => negb (deferred s)) l)
       | None => []
       end)
    (suspended w)
    (nextTick_callbacks w ++ omap call_of (List.filter deferred l))
    (rejections w ++ omap reason_of l).
Proof.
  revert w. induction l as [| s l IH]; intros w.
  - simpl. destruct w as [[p |] ? ? ? ? ? ? ? ? ?]; simpl; now rewrite !app_nil_r.
  - cbn [fold_left]. rewrite IH. clear IH.
    cbn [List.filter]. unfold resume, call_of, reason_of, deferred.
    destruct (truthy (g_trackOnNextTick (s_guard s))); simpl;
      destruct (s_awaited s) as [derived | reason]; simpl;
      unfold nextTick, optional_trackView;
      destruct w as [[p |] ? ? ? ? ? ? ? ? ?]; simpl;
      f_equal; rewrite <- ?app_assoc; reflexivity.
Qed.

Lemma flush_fold (callbacks : list TrackView) (w : World) (p : GtmPlugin) :
  gtmPlugin w = Some p ->
  fold_left (fun w cb => optional_trackView cb w) callbacks w =
  set_trackView_calls (trackView_calls w ++ callbacks) w.
Proof.
  revert w. induction callbacks as [| cb callbacks IH]; intros w Hp.
  - simpl. rewrite app_nil_r. now destruct w.
  - cbn [fold_left]. rewrite IH.
    + unfold optional_trackView. rewrite Hp.
      unfold set_trackView_calls; simpl. now rewrite <- app_assoc.
    + unfold optional_trackView. now rewrite Hp.
Qed.

Lemma settle_world (w : World) (p : GtmPlugin) :
  gtmPlugin w = Some p ->
  trackView_calls (settle w) =
  trackView_calls w
  ++ omap call_of (List.filter (fun s => negb (deferred s)) (suspended w))
  ++ nextTick_callbacks w
  ++ omap call_of (List.filter deferred (suspended w))
  /\ rejections (settle w) = rejections w ++ omap reason_of (suspended w)
  /\ quiet (settle w).
Proof.
  intros Hp. unfold settle, resume_all. rewrite resume_fold.
  unfold flush_callbacks. cbn [gtmPlugin set_suspended]. rewrite Hp.
  rewrite (flush_fold _ _ p) by reflexivity.
  cbn. rewrite <- !app_assoc. repeat split.
Qed.

Lemma omap_call_of_split (l : list Suspended) :
  omap call_of (List.filter (fun s => negb (deferred s)) l)
  ++ omap call_of (List.filter deferred l)
  ≡ₚ omap call_of l.
Proof.
  induction l as [| s l IH]; [reflexivity |].
  cbn [List.filter]. destruct (deferred s); cbn [negb omap list_omap];
    destruct (call_of s) as [call |]; try exact IH.
  - rewrite <- Permutation_middle. now constructor.
  - simpl. now constructor.
Qed.

(** With the plugin installed, once everything scheduled has run: each
    suspended handler whose deriver fulfilled has made exactly one call of
    [trackView] and each queued callback has made its call, none lost and none
    twice; each handler whose deriver rejected has made no call and left its
    reason; and nothing is suspended or queued any more. *)
Theorem settle_calls (w : World) (p : GtmPlugin) :
  gtmPlugin w = Some p ->
  (exists calls,
     trackView_calls (settle w) = trackView_calls w ++ calls
     /\ calls ≡ₚ nextTick_callbacks w ++ omap call_of (suspended w))
  /\ rejections (settle w) = rejections w ++ omap reason_of (suspended w)
  /\ quiet (settle w).
Proof.
  intros Hp. destruct (settle_world w p Hp) as (Hcalls & Hrej & Hq).
  split; [| split; assumption].
  eexists. split; [exact Hcalls |].
  rewrite (Permutation_app_comm (nextTick_callbacks w)), app_assoc.
  rewrite (Permutation_app_comm _ (nextTick_callbacks w)).
  apply Permutation_app_head. apply omap_call_of_split.
Qed.

Lemma settle_calls_witness :
  gtmPlugin
    (handler (sample_guard (JBool true)) home home
       (handler (sample_guard (JBool false)) checkout home (sample_world None))) =
  Some (sample_plugin None)
  /\ exists calls,
       trackView_calls
         (settle
            (handler (sample_guard (JBool true)) home home
               (handler (sample_guard (JBool false)) checkout home
                  (sample_world None)))) =
       [] ++ calls
       /\ length calls = 2.
Proof.
  split; [reflexivity |].
  destruct (settle_calls
              (handler (sample_guard (JBool true)) home home
                 (handler (sample_guard (JBool false)) checkout home
                    (sample_world None)))
              (sample_plugin None) eq_refl)
    as [(calls & Hcalls & Hperm) _].
  exists calls. split; [exact Hcalls |].
  apply Permutation_length in Hperm. exact Hperm.
Defined.

(** ** The name and the URL *)

(** For a navigation that passes the filter the event name is a string, and it
    is empty only for a route whose own name is empty: a [meta.gtm] that is
    used is never empty. *)
Theorem event_name_is_string (ignored : IgnoredViews) (to from : Route) :
  ignore_route ignored to from = false ->
  exists s,
    event_name to = JStr s
    /\ (s = "" -> name to = JStr "").
Proof.
  unfold ignore_route. rewrite !orb_false_iff, negb_false_iff.
  intros [[Hty _] _].
  destruct (name to) as [| | b | n | nm | r] eqn:Hname; try discriminate.
  unfold event_name. rewrite Hname.
  destruct (meta to) as [m |]; [| exists nm; split; [reflexivity | now intros ->]].
  destruct (gtm m) as [| | b | n | s | r]; simpl;
    try (exists nm; split; [reflexivity | now intros ->]).
  destruct (String.eqb_spec s "") as [-> | Hne]; simpl.
  - exists nm. split; [reflexivity | now intros ->].
  - exists s. split; [reflexivity | contradiction].
Qed.

Lemma event_name_is_string_witness :
  ignore_route (IgnoredNames ["about"]) checkout home = false
  /\ exists s, event_name checkout = JStr s.
Proof.
  split; [reflexivity |].
  destruct (event_name_is_string (IgnoredNames ["about"]) checkout home eq_refl)
    as (s & Hs & _).
  exists s. exact Hs.
Defined.

Lemma startsWith_slash_cons (p : string) : startsWith ("/" +:+ p) "/" = true.
Proof. apply startsWith_slash. eauto. Qed.

Lemma endsWith_slash_app (b : string) : endsWith (b +:+ "/") "/" = true.
Proof. apply endsWith_slash. eauto. Qed.

(** The URL does not depend on which side brings the separator: a base with
    or without its final ["/"], and a path with or without its leading ["/"],
    give the same URL, and an absent base counts as the empty one.  Only one
    leading ["/"] of the path is dropped: whatever follows it is appended as
    it is. *)
Theorem full_url_separator (n : nat) (b p : string) (nm : JsValue)
    (m : option RouteMeta) :
  endsWith b "/" = false ->
  startsWith p "/" = false ->
  full_url (mkRouter n (Some (b +:+ "/"))) (mkRoute nm p m) =
  (b +:+ "/") +:+ p
  /\ full_url (mkRouter n (Some b)) (mkRoute nm p m) = (b +:+ "/") +:+ p
  /\ full_url (mkRouter n (Some b)) (mkRoute nm ("/" +:+ p) m) = (b +:+ "/") +:+ p
  /\ full_url (mkRouter n (Some (b +:+ "/"))) (mkRoute nm ("/" +:+ p) m) =
     (b +:+ "/") +:+ p
  /\ (forall q,
        full_url (mkRouter n (Some b)) (mkRoute nm ("/" +:+ q) m) =
        (b +:+ "/") +:+ q)
  /\ (forall q,
        full_url (mkRouter n None) (mkRoute nm q m) =
        full_url (mkRouter n (Some "")) (mkRoute nm q m)).
Proof.
  intros Hb Hp. unfold full_url. cbn [options_base fullPath from_option id].
  rewrite endsWith_slash_app, Hb, Hp, !startsWith_slash_cons. cbn [negb].
  rewrite !append_cons, !append_nil, !substring_1_cons.
  repeat split. intros q.
  now rewrite startsWith_slash_cons, append_cons, append_nil, substring_1_cons.
Qed.

Lemma full_url_separator_witness :
  endsWith "/app" "/" = false
  /\ startsWith "c" "/" = false
  /\ full_url (mkRouter 0 (Some "/app")) (mkRoute JNull "//c" None) = "/app//c".
Proof.
  split; [reflexivity |]. split; [reflexivity |].
  destruct (full_url_separator 0 "/app" "c" JNull None eq_refl eq_refl)
    as (_ & _ & _ & _ & Hq & _).
  exact (Hq "/c").
Defined.

(** ** From [install] to [trackView] *)

Lemma navigation_one (r : Router) (g : Guard) (to from : Route) (w : World) :
  hooks_of r w = [g] -> navigation r to from w = handler g to from w.
Proof. unfold navigation. now intros ->. Qed.

(** After [install] in a browser with a router that had no hook, a completed
    navigation to a route that the [ignoredViews] of the options let through
    ends in exactly one call of [trackView], with the event name, the URL
    rebuilt from the router's base and the data of the deriver of the options
    (the empty record without one) under the route meta. *)
Theorem install_then_navigation (new : VueGtmUseOptions.t -> GtmPlugin)
    (options : option VueGtmUseOptions.t) (w : World) (r : Router)
    (to from : Route) (derived : JsRecord) :
  isInBrowserContext (new (effective options)) = true ->
  options ≫= vueRouter = Some r ->
  hooks_of r w = [] ->
  quiet w ->
  ignore_route (default (IgnoredNames []) (options ≫= ignoredViews)) to from = false ->
  default (fun _ _ => Fulfilled ∅) (options ≫= vueRouterAdditionalEventData) to from =
  Fulfilled derived ->
  trackView_calls (settle (navigation r to from (install new options w))) =
  trackView_calls w ++
  [mkTrackView (event_name to) (full_url r to) (additional_event_data derived to)].
Proof.
  intros Hb Hr Hhooks Hq Hpass Hd.
  assert (Hoptions : exists o, options = Some o)
    by (destruct options; [eauto | discriminate]).
  destruct Hoptions as [o ->].
  rewrite (navigation_one r (installed_guard (effective (Some o)) r)).
  - destruct (install_rest new (Some o) w) as (<- & _).
    destruct (install_plugin new (Some o) w) as (Hp & _).
    exact (settle_handler (installed_guard (effective (Some o)) r) to from
             (install new (Some o) w) (new (effective (Some o))) derived
             (install_quiet new (Some o) w Hq) Hp Hpass Hd).
  - rewrite (hooks_of_install new (Some o) w r Hb Hr), Hhooks. reflexivity.
Qed.

Lemma install_then_navigation_witness :
  quiet initial
  /\ hooks_of sample_router initial = []
  /\ trackView_calls
       (settle (navigation sample_router checkout home
                  (install (sample_core true) (Some (sample_options None)) initial))) =
     trackView_calls initial ++
     [mkTrackView (event_name checkout) (full_url sample_router checkout)
        (additional_event_data ∅ checkout)].
Proof.
  split; [split; reflexivity |]. split; [reflexivity |].
  apply (install_then_navigation (sample_core true) (Some (sample_options None))
           initial sample_router checkout home ∅);
    try reflexivity.
  split; reflexivity.
Defined.

Lemma navigation_two (r : Router) (g1 g2 : Guard) (to from : Route) (w : World) :
  hooks_of r w = [g1; g2] ->
  navigation r to from w = handler g2 to from (handler g1 to from w).
Proof. unfold navigation. now intros ->. Qed.

(** [install] does not guard against a second run.  Run twice with the same
    options, in a browser, with a router that had no hook, it leaves the
    singleton of the second run behind both accessors and [useGtm], and two
    hooks on the router, so that a navigation which passes the filter ends in
    the same call of [trackView] made twice. *)
Theorem install_twice_tracks_twice (new : VueGtmUseOptions.t -> GtmPlugin)
    (options : option VueGtmUseOptions.t) (w : World) (r : Router)
    (to from : Route) (derived : JsRecord) :
  isInBrowserContext (new (effective options)) = true ->
  options ≫= vueRouter = Some r ->
  hooks_of r w = [] ->
  quiet w ->
  ignore_route (default (IgnoredNames []) (options ≫= ignoredViews)) to from = false ->
  default (fun _ _ => Fulfilled ∅) (options ≫= vueRouterAdditionalEventData) to from =
  Fulfilled derived ->
  let w2 := install new options (install new options w) in
  let call :=
    mkTrackView (event_name to) (full_url r to) (additional_event_data derived to) in
  useGtm w2 = Some (new (effective options))
  /\ Vue_prototype_gtm w2 = useGtm w2
  /\ Vue_gtm w2 = useGtm w2
  /\ length (hooks_of r w2) = 2
  /\ trackView_calls (settle (navigation r to from w2)) =
     trackView_calls w ++ [call; call].
Proof.
  intros Hb Hr Hhooks Hq Hpass Hd. cbv zeta.
  assert (Hoptions : exists o, options = Some o)
    by (destruct options; [eauto | discriminate]).
  destruct Hoptions as [o ->].
  set (w1 := install new (Some o) w).
  set (g := installed_guard (effective (Some o)) r).
  destruct (install_plugin new (Some o) w1) as (Hp & Hproto & Hvue).
  assert (Hh : hooks_of r (install new (Some o) w1) = [g; g]).
  { rewrite (hooks_of_install new (Some o) w1 r Hb Hr). unfold w1.
    rewrite (hooks_of_install new (Some o) w r Hb Hr), Hhooks. reflexivity. }
  unfold useGtm. rewrite Hp, Hproto, Hvue, Hh.
  repeat (split; [reflexivity |]).
  rewrite (navigation_two r g g) by exact Hh.
  assert (Hq2 : quiet (install new (Some o) w1))
    by (apply install_quiet, install_quiet, Hq).
  assert (Hcalls : trackView_calls (install new (Some o) w1) = trackView_calls w).
  { destruct (install_rest new (Some o) w1) as (-> & _). unfold w1.
    now destruct (install_rest new (Some o) w) as (-> & _). }
  rewrite <- Hcalls. revert Hp Hq2.
  generalize (install new (Some o) w1). intros w2 Hp [Hs Hc].
  assert (Hpass' : ignore_route (g_ignoredViews g) to from = false) by exact Hpass.
  assert (Hd' : g_deriveAdditionalEventData g to from = Fulfilled derived) by exact Hd.
  rewrite !handler_suspends by assumption. rewrite Hd'.
  match goal with
  | |- trackView_calls (settle ?w3) = _ =>
      destruct (settle_world w3 (new (effective (Some o)))) as (-> & _);
        [exact Hp |]
  end.
  cbn [suspended set_suspended nextTick_callbacks trackView_calls].
  rewrite Hs, Hc. cbn [app List.filter]. unfold deferred; cbn [s_guard].
  destruct (truthy (g_trackOnNextTick g)); reflexivity.
Qed.

Lemma install_twice_tracks_twice_witness :
  quiet initial
  /\ trackView_calls
       (settle
          (navigation sample_router home home
             (install (sample_core true) (Some (sample_options None))
                (install (sample_core true) (Some (sample_options None)) initial)))) =
     [mkTrackView (JStr "home") "/app/home" ∅;
      mkTrackView (JStr "home") "/app/home" ∅].
Proof.
  split; [split; reflexivity |].
  destruct (install_twice_tracks_twice (sample_core true) (Some (sample_options None))
              initial sample_router home home ∅
              eq_refl eq_refl eq_refl (conj eq_refl eq_refl) eq_refl eq_refl)
    as (_ & _ & _ & _ & Hcalls).
  exact Hcalls.
Defined.
